(** * Common/Vulkan/VulkanContext.h: deferred deletion and the frame cycle

    A shallow embedding of [VulkanDeleteList] and of the parts of
    [VulkanContext] that select the frame slot, followed by a model of the
    frame cycle controller whose member functions are only declared in the
    header.  Vectors are lists in push order, Vulkan handles are 64-bit
    opaque numbers, and the device is the chronological log of the calls it
    has received. *)

From Stdlib Require Import ZArith NArith List Bool Lia Sorted.
Import ListNotations.
Open Scope Z_scope.

(** ** Handles and object kinds *)

(** Non-dispatchable Vulkan handles are 64-bit opaque values. *)
Definition VkDescriptorPool := N.
Definition VkShaderModule := N.
Definition VkBuffer := N.
Definition VkBufferView := N.
Definition VkImage := N.
Definition VkImageView := N.
Definition VkDeviceMemory := N.
Definition VkSampler := N.
Definition VkPipelineCache := N.
Definition VkCommandBuffer := N.

(** The nine kinds of object a [VulkanDeleteList] has a bucket for, in the
    order of its members. *)
Inductive ObjectKind : Type :=
| KDescriptorPool
| KShaderModule
| KBuffer
| KBufferView
| KImage
| KImageView
| KDeviceMemory
| KSampler
| KPipelineCache.

Definition all_kinds : list ObjectKind :=
  [KDescriptorPool; KShaderModule; KBuffer; KBufferView; KImage; KImageView;
   KDeviceMemory; KSampler; KPipelineCache].

Definition ObjectKind_eq_dec (a b : ObjectKind) : {a = b} + {a <> b}.
Proof. decide equality. Defined.

Definition kind_eqb (a b : ObjectKind) : bool :=
  if ObjectKind_eq_dec a b then true else false.

(** ** The device as a log of calls *)

(** States of the surface state machine of the frame cycle. *)
Inductive Phase : Type := Idle | Acquiring | Recording | Submitted | Presented.

(** What the presentation engine answers to an image acquisition. *)
Inductive AcquireResult : Type :=
| AcquireImage (index : N)
| AcquireOutOfDate.

(** One entry of the log.  The first nine are the device-level destroy entry
    points called by [PerformDeletes]; the others are written by the frame
    cycle controller.  [ApiQueueDelete] and [Enter] are markers (a delete
    request entering the global list while frame [cycle] is current, and a
    transition of the state machine); they are not device calls. *)
Inductive Event : Type :=
| vkDestroyDescriptorPool (pool : VkDescriptorPool)
| vkDestroyShaderModule (module : VkShaderModule)
| vkDestroyBuffer (buf : VkBuffer)
| vkDestroyBufferView (bufView : VkBufferView)
| vkDestroyImage (image : VkImage)
| vkDestroyImageView (imageView : VkImageView)
| vkFreeMemory (mem : VkDeviceMemory)
| vkDestroySampler (sampler : VkSampler)
| vkDestroyPipelineCache (pcache : VkPipelineCache)
| ApiQueueDelete (cycle : Z) (kind : ObjectKind) (handle : N)
| FenceWait (slot : Z) (waited_ns : N) (signal_of : option Z)
| FenceReset (slot : Z)
| AcquireNextImage (result : AcquireResult)
| QueueSubmit (cycle : Z) (slot : Z) (batch : list VkCommandBuffer)
| QueuePresent (image : N)
| Enter (p : Phase).

Definition Device := list Event.

Definition Event_eq_dec (a b : Event) : {a = b} + {a <> b}.
Proof.
  repeat decide equality.
Defined.

(** A call appends to the log. *)
Definition call (e : Event) (device : Device) : Device := device ++ [e].

(** [for (auto &x : v) body(x);] *)
Definition for_each {A : Type} (v : list A) (body : A -> Device -> Device)
  (device : Device) : Device :=
  fold_left (fun d x => body x d) v device.

(** ** std::vector operations used by the class *)

Definition push_back {A : Type} (v : list A) (x : A) : list A := v ++ [x].

Definition size {A : Type} (v : list A) : N := N.of_nat (length v).

Definition clear {A : Type} (v : list A) : list A := [].

(** [dst = std::move(src)]: the destination takes the elements and the
    moved-from vector is left empty (the buffer is handed over, which is
    what the move assignment of [std::vector] with the default allocator
    does).  Returns (new destination, moved-from source). *)
Definition move_assign {A : Type} (dst src : list A) : list A * list A :=
  (src, []).

(** ** Errors *)

(** A failed [assert] aborts (with the line of the assertion); a fence wait
    that reaches its timeout is fatal; ending a render pass that was not
    begun is a precondition violation. *)
Inductive Abort : Type :=
| AssertionFailed (line : Z)
| FenceTimeout (waited_ns : N)
| EndWithoutBegin.

Definition Result (A : Type) : Type := (Abort + A)%type.

Definition ret {A : Type} (a : A) : Result A := inr a.

Definition bind {A B : Type} (c : Result A) (k : A -> Result B) : Result B :=
  match c with
  | inl e => inl e
  | inr a => k a
  end.

Notation "x <- c ;; k" := (bind c (fun x => k))
  (at level 61, c at next level, right associativity).
Notation "' pat <- c ;; k" := (bind c (fun x => let 'pat := x in k))
  (at level 61, pat pattern, c at next level, right associativity).
Notation "c ;;; k" := (bind c (fun _ => k))
  (at level 61, right associativity).

(** The preprocessor symbols the header's assertions depend on. *)
Record Build : Type := mkBuild {
  ANDROID : bool;
  NDEBUG : bool
}.

(** Lines 4 to 7: [#ifdef ANDROID #undef NDEBUG #endif] before
    [#include <cassert>], so assertions are compiled in on Android and,
    elsewhere, when NDEBUG is not defined. *)
Definition asserts_enabled (build : Build) : bool :=
  ANDROID build || negb (NDEBUG build).

Definition debug_build : Build := mkBuild false false.
Definition release_build : Build := mkBuild false true.
Definition android_release_build : Build := mkBuild true true.

(** [assert] of <cassert>: with assertions compiled in a false condition
    aborts; compiled out, the macro expands to nothing. *)
Definition assert (build : Build) (cond : bool) (line : Z) : Result unit :=
  if asserts_enabled build then
    if cond then inr tt else inl (AssertionFailed line)
  else inr tt.

(** ** class VulkanDeleteList *)

Record VulkanDeleteList : Type := mkDeleteList {
  descPools_ : list VkDescriptorPool;
  modules_ : list VkShaderModule;
  buffers_ : list VkBuffer;
  bufferViews_ : list VkBufferView;
  images_ : list VkImage;
  imageViews_ : list VkImageView;
  deviceMemory_ : list VkDeviceMemory;
  samplers_ : list VkSampler;
  pipelineCaches_ : list VkPipelineCache
}.

(** A freshly constructed list: every vector is empty. *)
Definition empty_list : VulkanDeleteList :=
  mkDeleteList [] [] [] [] [] [] [] [] [].

(** Member assignment, one function per member. *)
Definition set_descPools (v : list VkDescriptorPool) (d : VulkanDeleteList) :=
  mkDeleteList v (modules_ d) (buffers_ d) (bufferViews_ d) (images_ d)
    (imageViews_ d) (deviceMemory_ d) (samplers_ d) (pipelineCaches_ d).
Definition set_modules (v : list VkShaderModule) (d : VulkanDeleteList) :=
  mkDeleteList (descPools_ d) v (buffers_ d) (bufferViews_ d) (images_ d)
    (imageViews_ d) (deviceMemory_ d) (samplers_ d) (pipelineCaches_ d).
Definition set_buffers (v : list VkBuffer) (d : VulkanDeleteList) :=
  mkDeleteList (descPools_ d) (modules_ d) v (bufferViews_ d) (images_ d)
    (imageViews_ d) (deviceMemory_ d) (samplers_ d) (pipelineCaches_ d).
Definition set_bufferViews (v : list VkBufferView) (d : VulkanDeleteList) :=
  mkDeleteList (descPools_ d) (modules_ d) (buffers_ d) v (images_ d)
    (imageViews_ d) (deviceMemory_ d) (samplers_ d) (pipelineCaches_ d).
Definition set_images (v : list VkImage) (d : VulkanDeleteList) :=
  mkDeleteList (descPools_ d) (modules_ d) (buffers_ d) (bufferViews_ d) v
    (imageViews_ d) (deviceMemory_ d) (samplers_ d) (pipelineCaches_ d).
Definition set_imageViews (v : list VkImageView) (d : VulkanDeleteList) :=
  mkDeleteList (descPools_ d) (modules_ d) (buffers_ d) (bufferViews_ d)
    (images_ d) v (deviceMemory_ d) (samplers_ d) (pipelineCaches_ d).
Definition set_deviceMemory (v : list VkDeviceMemory) (d : VulkanDeleteList) :=
  mkDeleteList (descPools_ d) (modules_ d) (buffers_ d) (bufferViews_ d)
    (images_ d) (imageViews_ d) v (samplers_ d) (pipelineCaches_ d).
Definition set_samplers (v : list VkSampler) (d : VulkanDeleteList) :=
  mkDeleteList (descPools_ d) (modules_ d) (buffers_ d) (bufferViews_ d)
    (images_ d) (imageViews_ d) (deviceMemory_ d) v (pipelineCaches_ d).
Definition set_pipelineCaches (v : list VkPipelineCache) (d : VulkanDeleteList) :=
  mkDeleteList (descPools_ d) (modules_ d) (buffers_ d) (bufferViews_ d)
    (images_ d) (imageViews_ d) (deviceMemory_ d) (samplers_ d) v.

Definition QueueDeleteDescriptorPool (pool : VkDescriptorPool) (self : VulkanDeleteList) :=
  set_descPools (push_back (descPools_ self) pool) self.
Definition QueueDeleteShaderModule (module : VkShaderModule) (self : VulkanDeleteList) :=
  set_modules (push_back (modules_ self) module) self.
Definition QueueDeleteBuffer (buffer : VkBuffer) (self : VulkanDeleteList) :=
  set_buffers (push_back (buffers_ self) buffer) self.
Definition QueueDeleteBufferView (bufferView : VkBufferView) (self : VulkanDeleteList) :=
  set_bufferViews (push_back (bufferViews_ self) bufferView) self.
Definition QueueDeleteImage (image : VkImage) (self : VulkanDeleteList) :=
  set_images (push_back (images_ self) image) self.
Definition QueueDeleteImageView (imageView : VkImageView) (self : VulkanDeleteList) :=
  set_imageViews (push_back (imageViews_ self) imageView) self.
Definition QueueDeleteDeviceMemory (deviceMemory : VkDeviceMemory) (self : VulkanDeleteList) :=
  set_deviceMemory (push_back (deviceMemory_ self) deviceMemory) self.
Definition QueueDeleteSampler (sampler : VkSampler) (self : VulkanDeleteList) :=
  set_samplers (push_back (samplers_ self) sampler) self.
Definition QueueDeletePipelineCache (pipelineCache : VkPipelineCache) (self : VulkanDeleteList) :=
  set_pipelineCaches (push_back (pipelineCaches_ self) pipelineCache) self.

(** [Take(del)]: nine assertions that [self] is empty, then nine move
    assignments from [del].  Returns the new [self] and what is left of
    [del]; a failing assertion aborts before anything is moved. *)
Definition Take (build : Build) (self del : VulkanDeleteList)
  : Result (VulkanDeleteList * VulkanDeleteList) :=
  assert build (size (descPools_ self) =? 0)%N 66 ;;;
  assert build (size (modules_ self) =? 0)%N 67 ;;;
  assert build (size (buffers_ self) =? 0)%N 68 ;;;
  assert build (size (bufferViews_ self) =? 0)%N 69 ;;;
  assert build (size (images_ self) =? 0)%N 70 ;;;
  assert build (size (imageViews_ self) =? 0)%N 71 ;;;
  assert build (size (deviceMemory_ self) =? 0)%N 72 ;;;
  assert build (size (samplers_ self) =? 0)%N 73 ;;;
  assert build (size (pipelineCaches_ self) =? 0)%N 74 ;;;
  let '(v, w) := move_assign (descPools_ self) (descPools_ del) in
  let self := set_descPools v self in let del := set_descPools w del in
  let '(v, w) := move_assign (modules_ self) (modules_ del) in
  let self := set_modules v self in let del := set_modules w del in
  let '(v, w) := move_assign (buffers_ self) (buffers_ del) in
  let self := set_buffers v self in let del := set_buffers w del in
  let '(v, w) := move_assign (bufferViews_ self) (bufferViews_ del) in
  let self := set_bufferViews v self in let del := set_bufferViews w del in
  let '(v, w) := move_assign (images_ self) (images_ del) in
  let self := set_images v self in let del := set_images w del in
  let '(v, w) := move_assign (imageViews_ self) (imageViews_ del) in
  let self := set_imageViews v self in let del := set_imageViews w del in
  let '(v, w) := move_assign (deviceMemory_ self) (deviceMemory_ del) in
  let self := set_deviceMemory v self in let del := set_deviceMemory w del in
  let '(v, w) := move_assign (samplers_ self) (samplers_ del) in
  let self := set_samplers v self in let del := set_samplers w del in
  let '(v, w) := move_assign (pipelineCaches_ self) (pipelineCaches_ del) in
  let self := set_pipelineCaches v self in let del := set_pipelineCaches w del in
  ret (self, del).

(** [PerformDeletes(device)]: nine loops, each followed by the clearing of
    its vector.  Returns the list afterwards and the device log. *)
Definition PerformDeletes (self : VulkanDeleteList) (device : Device)
  : VulkanDeleteList * Device :=
  let device := for_each (descPools_ self)
                  (fun descPool => call (vkDestroyDescriptorPool descPool)) device in
  let self := set_descPools (clear (descPools_ self)) self in
  let device := for_each (modules_ self)
                  (fun module => call (vkDestroyShaderModule module)) device in
  let self := set_modules (clear (modules_ self)) self in
  let device := for_each (buffers_ self)
                  (fun buf => call (vkDestroyBuffer buf)) device in
  let self := set_buffers (clear (buffers_ self)) self in
  let device := for_each (bufferViews_ self)
                  (fun bufView => call (vkDestroyBufferView bufView)) device in
  let self := set_bufferViews (clear (bufferViews_ self)) self in
  let device := for_each (images_ self)
                  (fun image => call (vkDestroyImage image)) device in
  let self := set_images (clear (images_ self)) self in
  let device := for_each (imageViews_ self)
                  (fun imageView => call (vkDestroyImageView imageView)) device in
  let self := set_imageViews (clear (imageViews_ self)) self in
  let device := for_each (deviceMemory_ self)
                  (fun mem => call (vkFreeMemory mem)) device in
  let self := set_deviceMemory (clear (deviceMemory_ self)) self in
  let device := for_each (samplers_ self)
                  (fun sampler => call (vkDestroySampler sampler)) device in
  let self := set_samplers (clear (samplers_ self)) self in
  let device := for_each (pipelineCaches_ self)
                  (fun pcache => call (vkDestroyPipelineCache pcache)) device in
  let self := set_pipelineCaches (clear (pipelineCaches_ self)) self in
  (self, device).

(** ** Views of a delete list used to state its properties *)

(** The bucket of a kind. *)
Definition bucket (k : ObjectKind) (d : VulkanDeleteList) : list N :=
  match k with
  | KDescriptorPool => descPools_ d
  | KShaderModule => modules_ d
  | KBuffer => buffers_ d
  | KBufferView => bufferViews_ d
  | KImage => images_ d
  | KImageView => imageViews_ d
  | KDeviceMemory => deviceMemory_ d
  | KSampler => samplers_ d
  | KPipelineCache => pipelineCaches_ d
  end.

(** The member function that queues a handle of a kind. *)
Definition queue_delete (k : ObjectKind) (h : N) (d : VulkanDeleteList)
  : VulkanDeleteList :=
  match k with
  | KDescriptorPool => QueueDeleteDescriptorPool h d
  | KShaderModule => QueueDeleteShaderModule h d
  | KBuffer => QueueDeleteBuffer h d
  | KBufferView => QueueDeleteBufferView h d
  | KImage => QueueDeleteImage h d
  | KImageView => QueueDeleteImageView h d
  | KDeviceMemory => QueueDeleteDeviceMemory h d
  | KSampler => QueueDeleteSampler h d
  | KPipelineCache => QueueDeletePipelineCache h d
  end.

Definition queue_deletes (reqs : list (ObjectKind * N)) (d : VulkanDeleteList)
  : VulkanDeleteList :=
  fold_left (fun d r => queue_delete (fst r) (snd r) d) reqs d.

(** The Vulkan entry point that destroys an object of a kind. *)
Definition destroy_call (k : ObjectKind) (h : N) : Event :=
  match k with
  | KDescriptorPool => vkDestroyDescriptorPool h
  | KShaderModule => vkDestroyShaderModule h
  | KBuffer => vkDestroyBuffer h
  | KBufferView => vkDestroyBufferView h
  | KImage => vkDestroyImage h
  | KImageView => vkDestroyImageView h
  | KDeviceMemory => vkFreeMemory h
  | KSampler => vkDestroySampler h
  | KPipelineCache => vkDestroyPipelineCache h
  end.

(** The object a logged call destroys, if it is a destroy call. *)
Definition destroyed_object (e : Event) : option (ObjectKind * N) :=
  match e with
  | vkDestroyDescriptorPool h => Some (KDescriptorPool, h)
  | vkDestroyShaderModule h => Some (KShaderModule, h)
  | vkDestroyBuffer h => Some (KBuffer, h)
  | vkDestroyBufferView h => Some (KBufferView, h)
  | vkDestroyImage h => Some (KImage, h)
  | vkDestroyImageView h => Some (KImageView, h)
  | vkFreeMemory h => Some (KDeviceMemory, h)
  | vkDestroySampler h => Some (KSampler, h)
  | vkDestroyPipelineCache h => Some (KPipelineCache, h)
  | _ => None
  end.

(** The handles of kind [k] destroyed in a log, in the order of the calls. *)
Definition destroyed_of_kind (k : ObjectKind) (device : Device) : list N :=
  flat_map (fun e => match destroyed_object e with
                     | Some (k', h) => if kind_eqb k k' then [h] else []
                     | None => []
                     end) device.

(** The handles of kind [k] among a list of requests, in request order. *)
Definition requests_of_kind (k : ObjectKind) (reqs : list (ObjectKind * N))
  : list N :=
  map snd (filter (fun r => kind_eqb k (fst r)) reqs).

(** The calls a drain of [d] makes, bucket after bucket. *)
Definition drain_calls (d : VulkanDeleteList) : list Event :=
  map vkDestroyDescriptorPool (descPools_ d) ++
  map vkDestroyShaderModule (modules_ d) ++
  map vkDestroyBuffer (buffers_ d) ++
  map vkDestroyBufferView (bufferViews_ d) ++
  map vkDestroyImage (images_ d) ++
  map vkDestroyImageView (imageViews_ d) ++
  map vkFreeMemory (deviceMemory_ d) ++
  map vkDestroySampler (samplers_ d) ++
  map vkDestroyPipelineCache (pipelineCaches_ d).

(** Number of entries over all buckets. *)
Definition total_entries (d : VulkanDeleteList) : nat :=
  list_sum (map (fun k => length (bucket k d)) all_kinds).

(** How often the destroy call for ([k], [h]) occurs in a log, how often
    [h] sits in bucket [k], and how often a request for it was logged. *)
Definition count_destroy (k : ObjectKind) (h : N) (device : Device) : nat :=
  count_occ Event_eq_dec device (destroy_call k h).

Definition count_in (k : ObjectKind) (h : N) (d : VulkanDeleteList) : nat :=
  count_occ N.eq_dec (bucket k d) h.

Definition is_request_of (k : ObjectKind) (h : N) (e : Event) : bool :=
  match e with
  | ApiQueueDelete _ k' h' => kind_eqb k k' && N.eqb h h'
  | _ => false
  end.


(** Entries of the log that are calls on the device (not markers). *)
Definition is_device_call (e : Event) : bool :=
  match e with
  | ApiQueueDelete _ _ _ | Enter _ => false
  | _ => true
  end.

(** ** class VulkanContext: the members the frame cycle uses *)

(** [FENCE_TIMEOUT], in nanoseconds. *)
Definition FENCE_TIMEOUT : N := 10000000000.

(** What the host knows of a slot's fence: created signalled and not used
    yet, reset with nothing submitted under it, or handed to the queue with
    the submission of a frame. *)
Inductive FenceState : Type :=
| FenceSignaled
| FenceUnsignaled
| FenceSubmitted (cycle : Z).

(** [struct FrameData].  The [fence] member holds the state of the fence
    rather than its handle. *)
Record FrameData : Type := mkFrameData {
  fence : FenceState;
  hasInitCommands : bool;
  cmdInit : VkCommandBuffer;
  cmdBuf : VkCommandBuffer;
  deleteList : VulkanDeleteList
}.

(** [FrameData frame_[2]] *)
Definition frame_count : Z := 2.

(** The members [device_], [frame_], [curFrame_], [globalDeleteList_],
    [current_buffer] and [cmdQueue_], and the state of the surface state
    machine. *)
Record VulkanContext : Type := mkContext {
  device_ : Device;
  frame_ : FrameData * FrameData;
  curFrame_ : Z;
  globalDeleteList_ : VulkanDeleteList;
  current_buffer : N;
  cmdQueue_ : list VkCommandBuffer;
  phase : Phase
}.

(** [curFrame_ & 1] *)
Definition frame_index (curFrame : Z) : Z := Z.land curFrame 1.

(** [frame_[i]], for [i] in 0..1, and its assignment. *)
Definition frame_at (frames : FrameData * FrameData) (i : Z) : FrameData :=
  if i =? 0 then fst frames else snd frames.

Definition set_frame (frames : FrameData * FrameData) (i : Z) (f : FrameData)
  : FrameData * FrameData :=
  if i =? 0 then (f, snd frames) else (fst frames, f).

(** [GetSurfaceCommandBuffer()] *)
Definition GetSurfaceCommandBuffer (ctx : VulkanContext) : VkCommandBuffer :=
  cmdBuf (frame_at (frame_ ctx) (frame_index (curFrame_ ctx))).

(** [Delete()] hands out the global list. *)
Definition Delete (ctx : VulkanContext) : VulkanDeleteList :=
  globalDeleteList_ ctx.

(** A caller's [Delete().QueueDelete...(h)]: the global list gets the
    handle; the log gets a marker with the current frame number. *)
Definition api_queue_delete (k : ObjectKind) (h : N) (ctx : VulkanContext)
  : VulkanContext :=
  mkContext (call (ApiQueueDelete (curFrame_ ctx) k h) (device_ ctx))
    (frame_ ctx) (curFrame_ ctx) (queue_delete k h (Delete ctx))
    (current_buffer ctx) (cmdQueue_ ctx) (phase ctx).

(** ** The frame cycle controller *)

(** Where the global list is handed to the frame's list.  The design text
    folds it in during begin-render, right after the drain; the comment on
    [globalDeleteList_] in the header does it at the end of the frame.  The
    controller takes the place as a parameter and its properties are proved
    for both. *)
Inductive AbsorbPoint : Type := AbsorbAtBegin | AbsorbAtEnd.

(** Modelled from the spec: [CreateFence(presignalled)], declared in the
    header and defined in the missing VulkanContext.cpp. *)
Definition CreateFence (presignalled : bool) : FenceState :=
  if presignalled then FenceSignaled else FenceUnsignaled.

(** Result of a bounded wait on a fence. *)
Inductive WaitOutcome : Type :=
| Signalled (waited_ns : N) (signal_of : option Z)
| TimedOut.

(** Modelled from the spec: the wait half of [WaitAndResetFence] (missing
    VulkanContext.cpp).  A fence that was created signalled is ready at
    once.  One that went out with a submission is signalled when the GPU
    finishes that work, [gpu_ns] nanoseconds after the wait starts (0 if it
    already has); past [FENCE_TIMEOUT] the wait gives up.  A fence that was
    reset and has nothing submitted under it is never signalled. *)
Definition wait_fence (f : FenceState) (gpu_ns : N) : WaitOutcome :=
  match f with
  | FenceSignaled => Signalled 0 None
  | FenceSubmitted c =>
      if (gpu_ns <=? FENCE_TIMEOUT)%N then Signalled gpu_ns (Some c) else TimedOut
  | FenceUnsignaled => TimedOut
  end.

(** Modelled from the spec: construction of the controller (constructor and
    [InitObjects] of the missing VulkanContext.cpp).  Both slots get a
    pre-signalled fence, no init commands, their two command buffers from
    the pool and an empty delete list; the frame counter starts at 0. *)
Definition create_context (cmdInit0 cmdBuf0 cmdInit1 cmdBuf1 : VkCommandBuffer)
  : VulkanContext :=
  mkContext []
    (mkFrameData (CreateFence true) false cmdInit0 cmdBuf0 empty_list,
     mkFrameData (CreateFence true) false cmdInit1 cmdBuf1 empty_list)
    0 empty_list 0%N [] Idle.

(** What begin-render hands back: the command buffer to record into with the
    acquired image index, or the request to rebuild the swapchain. *)
Inductive BeginOutcome : Type :=
| RenderInto (cmd : VkCommandBuffer) (image : N)
| NeedsSwapchainRebuild.

(** Modelled from the spec: the hand-off step of the missing
    [BeginSurfaceRenderPass] and [EndSurfaceRenderPass], a [Take] of the
    global list into the frame's list at [here] if that is the configured
    place. *)
Definition absorb_at (build : Build) (place here : AbsorbPoint)
  (dl global : VulkanDeleteList) : Result (VulkanDeleteList * VulkanDeleteList) :=
  match place, here with
  | AbsorbAtBegin, AbsorbAtBegin | AbsorbAtEnd, AbsorbAtEnd => Take build dl global
  | _, _ => ret (dl, global)
  end.

(** Modelled from the spec: [BeginSurfaceRenderPass] (missing
    VulkanContext.cpp), the transition Idle -> Acquiring -> Recording.
    Select the slot, wait for its fence (timeout is fatal), reset it, drain
    the slot's delete list, fold in the global list, acquire the next image;
    a stale swapchain is surfaced to the caller, otherwise recording starts
    in the slot's command buffer.  [gpu_ns] and [acq] are what the GPU and
    the presentation engine answer. *)
Definition BeginSurfaceRenderPass (build : Build) (place : AbsorbPoint)
  (gpu_ns : N)
  (acq : AcquireResult) (ctx : VulkanContext)
  : Result (VulkanContext * BeginOutcome) :=
  let slot := frame_index (curFrame_ ctx) in
  let frame := frame_at (frame_ ctx) slot in
  let device := call (Enter Acquiring) (device_ ctx) in
  match wait_fence (fence frame) gpu_ns with
  | TimedOut => inl (FenceTimeout FENCE_TIMEOUT)
  | Signalled ns c =>
      let device := call (FenceWait slot ns c) device in
      let device := call (FenceReset slot) device in
      let '(dl, device) := PerformDeletes (deleteList frame) device in
      '(dl, global) <- absorb_at build place AbsorbAtBegin dl (globalDeleteList_ ctx) ;;
      let frame := mkFrameData FenceUnsignaled (hasInitCommands frame)
                     (cmdInit frame) (cmdBuf frame) dl in
      let frames := set_frame (frame_ ctx) slot frame in
      let device := call (AcquireNextImage acq) device in
      match acq with
      | AcquireOutOfDate =>
          ret (mkContext (call (Enter Idle) device) frames (curFrame_ ctx)
                 global (current_buffer ctx) (cmdQueue_ ctx) Idle,
               NeedsSwapchainRebuild)
      | AcquireImage index =>
          ret (mkContext (call (Enter Recording) device) frames (curFrame_ ctx)
                 global index (cmdQueue_ ctx) Recording,
               RenderInto (cmdBuf frame) index)
      end
  end.

(** Modelled from the spec: the batch the missing [EndSurfaceRenderPass]
    hands to the queue, the slot's one-time init commands if it has any,
    then the command buffers queued to run before the surface render pass,
    then the slot's render command buffer. *)
Definition submission_batch (frame : FrameData) (queued : list VkCommandBuffer)
  : list VkCommandBuffer :=
  (if hasInitCommands frame then [cmdInit frame] else []) ++ queued ++ [cmdBuf frame].

Definition is_recording (p : Phase) : bool :=
  match p with Recording => true | _ => false end.

(** Modelled from the spec: [EndSurfaceRenderPass] (missing
    VulkanContext.cpp), the transitions Recording -> Submitted -> Presented
    -> Idle.  Submit the batch with the slot's fence, clear the one-shot
    init flag and the queue of auxiliary buffers, present the acquired
    image, hand the global list over if that happens at the end of the
    frame, and increment the frame counter. *)
Definition EndSurfaceRenderPass (build : Build) (place : AbsorbPoint)
  (ctx : VulkanContext)
  : Result VulkanContext :=
  if is_recording (phase ctx) then
    let slot := frame_index (curFrame_ ctx) in
    let frame := frame_at (frame_ ctx) slot in
    let batch := submission_batch frame (cmdQueue_ ctx) in
    let device := call (QueueSubmit (curFrame_ ctx) slot batch) (device_ ctx) in
    let device := call (Enter Submitted) device in
    let device := call (QueuePresent (current_buffer ctx)) device in
    let device := call (Enter Presented) device in
    '(dl, global) <- absorb_at build place AbsorbAtEnd (deleteList frame) (globalDeleteList_ ctx) ;;
    let frame := mkFrameData (FenceSubmitted (curFrame_ ctx)) false
                   (cmdInit frame) (cmdBuf frame) dl in
    ret (mkContext (call (Enter Idle) device) (set_frame (frame_ ctx) slot frame)
           (curFrame_ ctx + 1) global (current_buffer ctx) (clear (cmdQueue_ ctx)) Idle)
  else inl EndWithoutBegin.

(** Modelled from the spec: [QueueBeforeSurfaceRender(cmd)] (missing
    VulkanContext.cpp) appends to [cmdQueue_]. *)
Definition QueueBeforeSurfaceRender (cmd : VkCommandBuffer) (ctx : VulkanContext)
  : VulkanContext :=
  mkContext (device_ ctx) (frame_ ctx) (curFrame_ ctx) (globalDeleteList_ ctx)
    (current_buffer ctx) (push_back (cmdQueue_ ctx) cmd) (phase ctx).

(** Modelled from the spec: [GetInitCommandBuffer()] (missing
    VulkanContext.cpp) marks the current slot's one-time command buffer as
    used. *)
Definition GetInitCommandBuffer (ctx : VulkanContext) : VulkanContext :=
  let slot := frame_index (curFrame_ ctx) in
  let frame := frame_at (frame_ ctx) slot in
  let frame := mkFrameData (fence frame) true (cmdInit frame) (cmdBuf frame)
                 (deleteList frame) in
  mkContext (device_ ctx) (set_frame (frame_ ctx) slot frame) (curFrame_ ctx)
    (globalDeleteList_ ctx) (current_buffer ctx) (cmdQueue_ ctx) (phase ctx).

(** The calls a client makes on the controller, with the answers of the GPU
    and of the presentation engine where a call depends on them. *)
Inductive Op : Type :=
| OpQueueDelete (k : ObjectKind) (h : N)
| OpBeginRender (gpu_ns : N) (acq : AcquireResult)
| OpEndRender
| OpQueueBeforeRender (cmd : VkCommandBuffer)
| OpGetInitCommandBuffer.

Definition step (build : Build) (place : AbsorbPoint) (ctx : VulkanContext)
  (op : Op)
  : Result VulkanContext :=
  match op with
  | OpQueueDelete k h => ret (api_queue_delete k h ctx)
  | OpBeginRender gpu_ns acq =>
      r <- BeginSurfaceRenderPass build place gpu_ns acq ctx ;; ret (fst r)
  | OpEndRender => EndSurfaceRenderPass build place ctx
  | OpQueueBeforeRender cmd => ret (QueueBeforeSurfaceRender cmd ctx)
  | OpGetInitCommandBuffer => ret (GetInitCommandBuffer ctx)
  end.

Fixpoint run (build : Build) (place : AbsorbPoint) (ops : list Op)
  (ctx : VulkanContext)
  : Result VulkanContext :=
  match ops with
  | [] => ret ctx
  | op :: rest => ctx' <- step build place ctx op ;; run build place rest ctx'
  end.

Definition is_begin (op : Op) : bool :=
  match op with OpBeginRender _ _ => true | _ => false end.

Definition count_begin (ops : list Op) : nat := length (filter is_begin ops).

(** ** Predicates on the log and on the controller's state *)




(** The slot the current frame uses, and the other one. *)
Definition cur_frame (ctx : VulkanContext) : FrameData :=
  frame_at (frame_ ctx) (frame_index (curFrame_ ctx)).

Definition other_frame (ctx : VulkanContext) : FrameData :=
  frame_at (frame_ ctx) (frame_index (curFrame_ ctx + 1)).

















(** The fence waits and the queue submissions of a log. *)
Definition is_fence_wait (e : Event) : bool :=
  match e with FenceWait _ _ _ => true | _ => false end.

Definition is_submit (e : Event) : bool :=
  match e with QueueSubmit _ _ _ => true | _ => false end.

(** [QueueBeforeSurfaceRender] called for each buffer of [cmds] in turn. *)
Definition queue_all_before (cmds : list VkCommandBuffer) (ctx : VulkanContext)
  : VulkanContext :=
  fold_left (fun c cmd => QueueBeforeSurfaceRender cmd c) cmds ctx.

Arguments create_context (cmdInit0 cmdBuf0 cmdInit1 cmdBuf1)%_N.
Arguments QueueBeforeSurfaceRender cmd%_N ctx.
Arguments OpQueueBeforeRender cmd%_N.
Arguments RenderInto (cmd image)%_N.

(** ** Member order, first failing assertion, request counts, flags *)

(** Position of a kind's vector among the members of the class, which is
    also the position of its loop in [PerformDeletes] and of its assertion
    in [Take] (line 66 + position). *)
Definition kind_rank (k : ObjectKind) : Z :=
  match k with
  | KDescriptorPool => 0
  | KShaderModule => 1
  | KBuffer => 2
  | KBufferView => 3
  | KImage => 4
  | KImageView => 5
  | KDeviceMemory => 6
  | KSampler => 7
  | KPipelineCache => 8
  end.

(** The kinds of the destroy calls of a log, in the order of the calls. *)
Definition destroyed_kinds (device : Device) : list ObjectKind :=
  flat_map (fun e => match destroyed_object e with
                     | Some (k, _) => [k]
                     | None => []
                     end) device.

(** The first kind, in member order, whose bucket holds an entry. *)
Definition first_nonempty (d : VulkanDeleteList) : option ObjectKind :=
  find (fun k => match bucket k d with [] => false | _ => true end) all_kinds.

(** How often ([k], [h]) occurs in a list of requests. *)
Definition count_requested (k : ObjectKind) (h : N) (reqs : list (ObjectKind * N))
  : nat :=
  length (filter (fun r => kind_eqb k (fst r) && N.eqb h (snd r)) reqs).

(** The anonymous enum of context flags. *)
Definition VULKAN_FLAG_VALIDATE : Z := 1.
Definition VULKAN_FLAG_PRESENT_MAILBOX : Z := 2.
Definition VULKAN_FLAG_PRESENT_IMMEDIATE : Z := 4.
Definition VULKAN_FLAG_PRESENT_FIFO_RELAXED : Z := 8.

Definition vulkan_flags : list Z :=
  [VULKAN_FLAG_VALIDATE; VULKAN_FLAG_PRESENT_MAILBOX;
   VULKAN_FLAG_PRESENT_IMMEDIATE; VULKAN_FLAG_PRESENT_FIFO_RELAXED].

(** [f1 | f2 | ...] *)
Definition combine_flags (fs : list Z) : Z := fold_right Z.lor 0 fs.

(** ** Matching destroy calls with their requests *)

(** [e] is a fence wait that returned on the signal of frame [c], on the
    fence of the slot of that frame. *)
Definition is_signal_of (c : Z) (e : Event) : bool :=
  match e with
  | FenceWait slot _ (Some c') => (slot =? frame_index c) && (c' =? c)
  | _ => false
  end.


(** The requests for ([k], [h]) in a log that are cleared: later in the log
    a fence wait returned on the signal of the frame that was current at
    the request. *)
Fixpoint cleared_requests (k : ObjectKind) (h : N) (log : Device) : nat :=
  match log with
  | [] => 0
  | e :: rest =>
      ((match e with
        | ApiQueueDelete c k' h' =>
            if kind_eqb k k' && N.eqb h h' && existsb (is_signal_of c) rest
            then 1 else 0
        | _ => 0
        end) + cleared_requests k h rest)%nat
  end.

(** At every destroy call of a handle, more requests for it have been
    cleared than destroy calls were made for it before: each destroy call
    has a cleared request of its own.  For a handle requested once this
    says that its destroy call comes after the request and after a fence
    wait on the signal of the frame that was current at the request. *)
Definition destroys_after_own_fence (device : Device) : Prop :=
  forall pre post k h,
    device = pre ++ destroy_call k h :: post ->
    (count_destroy k h pre < cleared_requests k h pre)%nat.






(** * Properties of the delete list *)

Lemma kind_eqb_refl (k : ObjectKind) : kind_eqb k k = true.
Proof. unfold kind_eqb. destruct (ObjectKind_eq_dec k k); congruence. Qed.

Lemma kind_eqb_neq (k k' : ObjectKind) : k <> k' -> kind_eqb k k' = false.
Proof. unfold kind_eqb. destruct (ObjectKind_eq_dec k k'); congruence. Qed.

Lemma kind_eqb_true (k k' : ObjectKind) : kind_eqb k k' = true -> k = k'.
Proof. unfold kind_eqb. destruct (ObjectKind_eq_dec k k'); congruence. Qed.

Lemma destroy_call_inj (k k' : ObjectKind) (h h' : N) :
  destroy_call k h = destroy_call k' h' -> k = k' /\ h = h'.
Proof. destruct k, k'; simpl; intros H; inversion H; auto. Qed.

Lemma destroyed_object_destroy_call (k : ObjectKind) (h : N) :
  destroyed_object (destroy_call k h) = Some (k, h).
Proof. destruct k; reflexivity. Qed.

Lemma for_each_call {A : Type} (f : A -> Event) (v : list A) (device : Device) :
  for_each v (fun x => call (f x)) device = device ++ map f v.
Proof.
  unfold for_each. revert device.
  induction v as [|x v IH]; intros device; simpl.
  - now rewrite app_nil_r.
  - rewrite IH. unfold call. now rewrite <- app_assoc.
Qed.

(** Draining issues the calls of [drain_calls] and leaves the empty list. *)
Lemma PerformDeletes_calls (self : VulkanDeleteList) (device : Device) :
  PerformDeletes self device = (empty_list, device ++ drain_calls self).
Proof.
  unfold PerformDeletes, drain_calls. cbn [descPools_ modules_ buffers_ bufferViews_ images_
    imageViews_ deviceMemory_ samplers_ pipelineCaches_ set_descPools set_modules
    set_buffers set_bufferViews set_images set_imageViews set_deviceMemory
    set_samplers set_pipelineCaches clear].
  rewrite !for_each_call. rewrite <- !app_assoc. reflexivity.
Qed.

(** The calls of a drain, kind by kind. *)
Lemma drain_calls_by_kind (d : VulkanDeleteList) :
  drain_calls d = concat (map (fun k => map (destroy_call k) (bucket k d)) all_kinds).
Proof.
  unfold drain_calls, all_kinds. cbn [map concat bucket].
  rewrite app_nil_r. reflexivity.
Qed.

Lemma count_destroy_map (k k' : ObjectKind) (h : N) (l : list N) :
  count_occ Event_eq_dec (map (destroy_call k') l) (destroy_call k h) =
  if kind_eqb k k' then count_occ N.eq_dec l h else 0%nat.
Proof.
  destruct (ObjectKind_eq_dec k k') as [<- | Hne].
  - rewrite kind_eqb_refl. symmetry. apply count_occ_map.
    intros x y Hxy. now apply destroy_call_inj in Hxy.
  - rewrite kind_eqb_neq by assumption.
    apply count_occ_not_In. rewrite in_map_iff. intros [x [Hx _]].
    apply destroy_call_inj in Hx. destruct Hx; congruence.
Qed.

Lemma count_destroy_drain_calls (k : ObjectKind) (h : N) (d : VulkanDeleteList) :
  count_destroy k h (drain_calls d) = count_in k h d.
Proof.
  unfold count_destroy, count_in. rewrite drain_calls_by_kind.
  unfold all_kinds. cbn [map concat]. rewrite !count_occ_app, !count_destroy_map.
  destruct k; cbn; lia.
Qed.

Lemma count_destroy_app (k : ObjectKind) (h : N) (a b : Device) :
  count_destroy k h (a ++ b) = (count_destroy k h a + count_destroy k h b)%nat.
Proof. apply count_occ_app. Qed.

Lemma destroyed_of_kind_app (k : ObjectKind) (a b : Device) :
  destroyed_of_kind k (a ++ b) = destroyed_of_kind k a ++ destroyed_of_kind k b.
Proof. apply flat_map_app. Qed.

Lemma destroyed_of_kind_map (k k' : ObjectKind) (l : list N) :
  destroyed_of_kind k (map (destroy_call k') l) = if kind_eqb k k' then l else [].
Proof.
  induction l as [|x l IH].
  - now destruct (kind_eqb k k').
  - change (map (destroy_call k') (x :: l))
      with ([destroy_call k' x] ++ map (destroy_call k') l).
    rewrite destroyed_of_kind_app, IH. unfold destroyed_of_kind. simpl.
    rewrite destroyed_object_destroy_call.
    destruct (kind_eqb k k'); reflexivity.
Qed.

Lemma destroyed_of_kind_drain_calls (k : ObjectKind) (d : VulkanDeleteList) :
  destroyed_of_kind k (drain_calls d) = bucket k d.
Proof.
  rewrite drain_calls_by_kind. unfold all_kinds. cbn [map concat].
  rewrite !destroyed_of_kind_app, !destroyed_of_kind_map.
  destruct k; cbn; rewrite ?app_nil_r; reflexivity.
Qed.

Lemma length_drain_calls (d : VulkanDeleteList) :
  length (drain_calls d) = total_entries d.
Proof.
  unfold drain_calls, total_entries, all_kinds.
  rewrite !length_app, !length_map. simpl. rewrite Nat.add_0_r. reflexivity.
Qed.

Lemma in_drain_calls (e : Event) (d : VulkanDeleteList) :
  In e (drain_calls d) <-> exists k h, e = destroy_call k h /\ In h (bucket k d).
Proof.
  rewrite drain_calls_by_kind, in_concat. split.
  - intros [l [Hl He]]. apply in_map_iff in Hl. destruct Hl as [k [<- _]].
    apply in_map_iff in He. destruct He as [h [<- Hh]]. eauto.
  - intros [k [h [-> Hh]]]. exists (map (destroy_call k) (bucket k d)). split.
    + apply in_map_iff. exists k. split; [reflexivity|]. destruct k; simpl; tauto.
    + now apply in_map.
Qed.

Lemma bucket_queue_delete_same (k : ObjectKind) (h : N) (d : VulkanDeleteList) :
  bucket k (queue_delete k h d) = bucket k d ++ [h].
Proof. destruct k; reflexivity. Qed.

Lemma bucket_queue_delete_other (k k' : ObjectKind) (h : N) (d : VulkanDeleteList) :
  k' <> k -> bucket k' (queue_delete k h d) = bucket k' d.
Proof. destruct k, k'; intros Hne; try reflexivity; congruence. Qed.

Lemma bucket_queue_deletes (k : ObjectKind) (reqs : list (ObjectKind * N))
  (d : VulkanDeleteList) :
  bucket k (queue_deletes reqs d) = bucket k d ++ requests_of_kind k reqs.
Proof.
  unfold queue_deletes, requests_of_kind. revert d.
  induction reqs as [|[k' h] reqs IH]; intros d; simpl.
  - now rewrite app_nil_r.
  - rewrite IH. destruct (ObjectKind_eq_dec k k') as [<- | Hne].
    + rewrite kind_eqb_refl, bucket_queue_delete_same. simpl.
      now rewrite <- app_assoc.
    + rewrite kind_eqb_neq, bucket_queue_delete_other by assumption. reflexivity.
Qed.

Lemma bucket_empty_list (k : ObjectKind) : bucket k empty_list = [].
Proof. destruct k; reflexivity. Qed.

Lemma size_zero {A : Type} (v : list A) : (size v =? 0)%N = true <-> v = [].
Proof.
  unfold size. destruct v; simpl; split; intros H; try reflexivity; try discriminate.
Qed.

(** [Take] on an empty destination moves the source, in every build. *)
Lemma Take_empty (build : Build) (del : VulkanDeleteList) :
  Take build empty_list del = inr (del, empty_list).
Proof.
  unfold Take, assert. destruct (asserts_enabled build); destruct del; reflexivity.
Qed.

(** With assertions compiled out [Take] moves whatever the destination
    holds. *)
Lemma Take_unchecked (build : Build) (self del : VulkanDeleteList) :
  asserts_enabled build = false -> Take build self del = inr (del, empty_list).
Proof.
  intros H. unfold Take, assert. rewrite H. destruct self, del. reflexivity.
Qed.

(** With assertions compiled in, the first non-empty bucket decides. *)
Lemma Take_checked (build : Build) (self del : VulkanDeleteList) :
  asserts_enabled build = true ->
  Take build self del =
  match first_nonempty self with
  | Some k => inl (AssertionFailed (66 + kind_rank k))
  | None => inr (del, empty_list)
  end.
Proof.
  intros H. unfold Take, assert. rewrite H.
  destruct self as [a b c d e f g i j], del.
  destruct a; [|reflexivity]. destruct b; [|reflexivity].
  destruct c; [|reflexivity]. destruct d; [|reflexivity].
  destruct e; [|reflexivity]. destruct f; [|reflexivity].
  destruct g; [|reflexivity]. destruct i; [|reflexivity].
  destruct j; reflexivity.
Qed.

Lemma all_buckets_empty (d : VulkanDeleteList) :
  (forall k, bucket k d = []) -> d = empty_list.
Proof.
  intros H. destruct d. unfold empty_list.
  pose proof (H KDescriptorPool). pose proof (H KShaderModule).
  pose proof (H KBuffer). pose proof (H KBufferView). pose proof (H KImage).
  pose proof (H KImageView). pose proof (H KDeviceMemory). pose proof (H KSampler).
  pose proof (H KPipelineCache). simpl in *. subst. reflexivity.
Qed.

Lemma first_nonempty_none (d : VulkanDeleteList) :
  first_nonempty d = None <-> d = empty_list.
Proof.
  split.
  - intros H. destruct d as [a b c e f g i j l].
    destruct a, b, c, e, f, g, i, j, l; try discriminate H. reflexivity.
  - intros ->. reflexivity.
Qed.

Lemma first_nonempty_some (d : VulkanDeleteList) (k : ObjectKind) :
  first_nonempty d = Some k -> 0 <= kind_rank k <= 8 /\ bucket k d <> [].
Proof.
  unfold first_nonempty. intros H. apply find_some in H. destruct H as [_ H].
  split; [destruct k; simpl; lia|]. intros E. rewrite E in H. discriminate.
Qed.

Lemma Take_ok_inv (build : Build) (self del self' del' : VulkanDeleteList) :
  Take build self del = inr (self', del') ->
  self' = del /\ del' = empty_list /\
  (asserts_enabled build = true -> self = empty_list).
Proof.
  intros H. destruct (asserts_enabled build) eqn:E.
  - rewrite (Take_checked _ _ _ E) in H.
    destruct (first_nonempty self) eqn:F; [discriminate|].
    apply first_nonempty_none in F. inversion H. auto.
  - rewrite (Take_unchecked _ _ _ E) in H. inversion H.
    repeat split; auto. discriminate.
Qed.

Lemma Take_nonempty (build : Build) (self del : VulkanDeleteList) :
  asserts_enabled build = true ->
  (exists k, bucket k self <> []) ->
  exists line, Take build self del = inl (AssertionFailed line) /\ 66 <= line <= 74.
Proof.
  intros E [k Hk]. rewrite (Take_checked _ _ _ E).
  destruct (first_nonempty self) as [k'|] eqn:F.
  - apply first_nonempty_some in F. eexists. split; [reflexivity | lia].
  - apply first_nonempty_none in F. subst self. rewrite bucket_empty_list in Hk.
    now contradiction Hk.
Qed.

(** * Slot selection *)

Lemma frame_index_mod (n : Z) : frame_index n = n mod 2.
Proof. unfold frame_index. change 1 with (Z.ones 1). now rewrite Z.land_ones. Qed.

Lemma frame_index_cases (n : Z) : frame_index n = 0 \/ frame_index n = 1.
Proof. rewrite frame_index_mod. pose proof (Z.mod_pos_bound n 2). lia. Qed.

Lemma frame_index_succ (n : Z) : frame_index (n + 1) = 1 - frame_index n.
Proof.
  rewrite !frame_index_mod.
  pose proof (Z.mod_pos_bound n 2). pose proof (Z.mod_pos_bound (n + 1) 2).
  pose proof (Z.div_mod n 2). pose proof (Z.div_mod (n + 1) 2). lia.
Qed.

Lemma frame_index_plus2 (n : Z) : frame_index (n + 2) = frame_index n.
Proof.
  replace (n + 2) with (n + 1 + 1) by lia. rewrite !frame_index_succ. lia.
Qed.


Lemma frame_index_pred (n : Z) : frame_index (n - 1) = frame_index (n + 1).
Proof. rewrite <- (frame_index_plus2 (n - 1)). f_equal. lia. Qed.

Lemma frame_at_set_same (fr : FrameData * FrameData) (i : Z) (f : FrameData) :
  frame_at (set_frame fr i f) i = f.
Proof. unfold frame_at, set_frame. destruct (i =? 0); reflexivity. Qed.

Lemma frame_at_set_next (fr : FrameData * FrameData) (n : Z) (f : FrameData) :
  frame_at (set_frame fr (frame_index n) f) (frame_index (n + 1)) =
  frame_at fr (frame_index (n + 1)).
Proof.
  rewrite frame_index_succ. unfold frame_at, set_frame.
  destruct (frame_index_cases n) as [-> | ->]; reflexivity.
Qed.

(** * The log *)




















(** * Unfolding the controller's calls *)

Lemma absorb_at_begin_drained (build : Build) (place : AbsorbPoint) (g : VulkanDeleteList) :
  absorb_at build place AbsorbAtBegin empty_list g =
  inr (match place with
       | AbsorbAtBegin => (g, empty_list)
       | AbsorbAtEnd => (empty_list, g)
       end).
Proof. destruct place; simpl; [apply Take_empty | reflexivity]. Qed.

(** What a begin-render call that returns has done. *)
Lemma Begin_returns (build : Build) (place : AbsorbPoint) (gpu_ns : N) (acq : AcquireResult)
  (ctx : VulkanContext) (r : VulkanContext * BeginOutcome) :
  BeginSurfaceRenderPass build place gpu_ns acq ctx = inr r ->
  exists ns sig dl,
    wait_fence (fence (cur_frame ctx)) gpu_ns = Signalled ns sig /\
    (dl, globalDeleteList_ (fst r)) =
      match place with
      | AbsorbAtBegin => (globalDeleteList_ ctx, empty_list)
      | AbsorbAtEnd => (empty_list, globalDeleteList_ ctx)
      end /\
    frame_ (fst r) =
      set_frame (frame_ ctx) (frame_index (curFrame_ ctx))
        (mkFrameData FenceUnsignaled (hasInitCommands (cur_frame ctx))
           (cmdInit (cur_frame ctx)) (cmdBuf (cur_frame ctx)) dl) /\
    curFrame_ (fst r) = curFrame_ ctx /\
    cmdQueue_ (fst r) = cmdQueue_ ctx /\
    device_ (fst r) =
      (device_ ctx ++
       [Enter Acquiring; FenceWait (frame_index (curFrame_ ctx)) ns sig;
        FenceReset (frame_index (curFrame_ ctx))]) ++
      drain_calls (deleteList (cur_frame ctx)) ++
      [AcquireNextImage acq; Enter (phase (fst r))] /\
    match acq with
    | AcquireOutOfDate =>
        phase (fst r) = Idle /\ snd r = NeedsSwapchainRebuild /\
        current_buffer (fst r) = current_buffer ctx
    | AcquireImage index =>
        phase (fst r) = Recording /\
        snd r = RenderInto (cmdBuf (cur_frame ctx)) index /\
        current_buffer (fst r) = index
    end.
Proof.
  unfold BeginSurfaceRenderPass. fold (cur_frame ctx).
  destruct (wait_fence (fence (cur_frame ctx)) gpu_ns) as [ns sig|];
    [|discriminate].
  rewrite PerformDeletes_calls, absorb_at_begin_drained. cbn [bind].
  intros H. exists ns, sig.
  exists (match place with
          | AbsorbAtBegin => globalDeleteList_ ctx
          | AbsorbAtEnd => empty_list
          end).
  split; [reflexivity|].
  unfold call in H.
  destruct place, acq; inversion H; subst r; cbn;
    repeat (rewrite <- ?app_assoc; cbn); repeat split; reflexivity.
Qed.

(** What an end-render call that returns has done. *)
Lemma End_returns (build : Build) (place : AbsorbPoint) (ctx ctx' : VulkanContext) :
  EndSurfaceRenderPass build place ctx = inr ctx' ->
  exists dl,
    phase ctx = Recording /\
    absorb_at build place AbsorbAtEnd (deleteList (cur_frame ctx)) (globalDeleteList_ ctx) =
      inr (dl, globalDeleteList_ ctx') /\
    frame_ ctx' =
      set_frame (frame_ ctx) (frame_index (curFrame_ ctx))
        (mkFrameData (FenceSubmitted (curFrame_ ctx)) false
           (cmdInit (cur_frame ctx)) (cmdBuf (cur_frame ctx)) dl) /\
    curFrame_ ctx' = curFrame_ ctx + 1 /\
    cmdQueue_ ctx' = [] /\
    current_buffer ctx' = current_buffer ctx /\
    phase ctx' = Idle /\
    device_ ctx' =
      device_ ctx ++
      [QueueSubmit (curFrame_ ctx) (frame_index (curFrame_ ctx))
         (submission_batch (cur_frame ctx) (cmdQueue_ ctx));
       Enter Submitted; QueuePresent (current_buffer ctx); Enter Presented;
       Enter Idle].
Proof.
  unfold EndSurfaceRenderPass. fold (cur_frame ctx).
  destruct (phase ctx) eqn:Hph; try discriminate. cbn [is_recording].
  destruct (absorb_at build place AbsorbAtEnd (deleteList (cur_frame ctx))
              (globalDeleteList_ ctx)) as [e | [dl g]] eqn:Habs; [discriminate|].
  cbn [bind]. intros H. exists dl. unfold call in H.
  inversion H; subst ctx'; cbn. repeat (rewrite <- ?app_assoc; cbn).
  repeat split; reflexivity.
Qed.

Lemma frames_after_set_cur (ctx ctx' : VulkanContext) (f : FrameData) :
  frame_ ctx' = set_frame (frame_ ctx) (frame_index (curFrame_ ctx)) f ->
  curFrame_ ctx' = curFrame_ ctx ->
  cur_frame ctx' = f /\ other_frame ctx' = other_frame ctx.
Proof.
  intros Hf Hn. unfold cur_frame, other_frame. rewrite Hf, Hn. split.
  - apply frame_at_set_same.
  - apply frame_at_set_next.
Qed.




Lemma count_in_queue_delete (k k' : ObjectKind) (h h' : N) (d : VulkanDeleteList) :
  count_in k' h' (queue_delete k h d) =
  (count_in k' h' d + if is_request_of k' h' (ApiQueueDelete 0 k h) then 1 else 0)%nat.
Proof.
  unfold count_in. cbn [is_request_of].
  destruct (ObjectKind_eq_dec k' k) as [-> | Hne].
  - rewrite kind_eqb_refl, bucket_queue_delete_same, count_occ_app. simpl.
    destruct (N.eq_dec h h') as [-> | Hh].
    + now rewrite N.eqb_refl.
    + assert (N.eqb h' h = false) as -> by (apply N.eqb_neq; congruence).
      reflexivity.
  - rewrite kind_eqb_neq, bucket_queue_delete_other by assumption. simpl. lia.
Qed.

(** * The invariant is kept by every call *)














(** * Progress: entries are destroyed within three begin-render calls *)

Lemma run_app (build : Build) (place : AbsorbPoint) (a b : list Op) (ctx ctx' : VulkanContext) :
  run build place (a ++ b) ctx = inr ctx' ->
  exists ctx1, run build place a ctx = inr ctx1 /\ run build place b ctx1 = inr ctx'.
Proof.
  revert ctx. induction a as [|op a IH]; intros ctx H; simpl in *.
  - now exists ctx.
  - destruct (step build place ctx op) as [e | c1]; [discriminate|]. simpl in *.
    now apply IH.
Qed.

(** After a stale acquisition no further begin-render call can return. *)
Lemma stalled_no_begin (build : Build) (place : AbsorbPoint) (ops : list Op)
  (ctx ctx' : VulkanContext) :
  phase ctx = Idle -> fence (cur_frame ctx) = FenceUnsignaled ->
  run build place ops ctx = inr ctx' -> count_begin ops = 0%nat.
Proof.
  revert ctx. induction ops as [|op ops IH]; intros ctx Hp Hf Hr; [reflexivity|].
  simpl in Hr. destruct (step build place ctx op) as [e | c1] eqn:Hs; [discriminate|].
  simpl in Hr. destruct op as [k h | gpu_ns acq | | cmd | ]; simpl in Hs.
  - injection Hs as <-. exact (IH (api_queue_delete k h ctx) Hp Hf Hr).
  - unfold BeginSurfaceRenderPass in Hs. fold (cur_frame ctx) in Hs.
    rewrite Hf in Hs. discriminate.
  - unfold EndSurfaceRenderPass in Hs. rewrite Hp in Hs. discriminate.
  - injection Hs as <-. exact (IH (QueueBeforeSurfaceRender cmd ctx) Hp Hf Hr).
  - injection Hs as <-. apply (IH (GetInitCommandBuffer ctx)); try assumption.
    unfold cur_frame, GetInitCommandBuffer. cbn [frame_ curFrame_].
    rewrite frame_at_set_same. exact Hf.
Qed.


Section Progress.

Variable build : Build.
Variable place : AbsorbPoint.
Variable k : ObjectKind.
Variable h : N.







End Progress.




(** * Main results *)

(** C3: for every delete list, [PerformDeletes] issues for each entry the
    destroy call of its kind, once per entry and nothing else, and leaves
    every bucket empty. *)
Theorem drain_destroys_each_entry_once_and_clears
  (self : VulkanDeleteList) (device : Device) :
  exists calls,
    PerformDeletes self device = (empty_list, device ++ calls) /\
    (forall k h, count_destroy k h calls = count_in k h self) /\
    (forall e, In e calls ->
       exists k h, e = destroy_call k h /\ In h (bucket k self)) /\
    length calls = total_entries self /\
    (forall k, bucket k (fst (PerformDeletes self device)) = []).
Proof.
  exists (drain_calls self). rewrite PerformDeletes_calls.
  split; [reflexivity|].
  split; [intros k h; apply count_destroy_drain_calls|].
  split; [intros e He; now apply in_drain_calls|].
  split; [apply length_drain_calls|].
  intros k. apply bucket_empty_list.
Qed.

(** C4: within a kind, a drain destroys the handles in the order of the
    bucket, and the order of the bucket is the order of the requests. *)
Theorem drain_is_fifo_within_kind (k : ObjectKind) (reqs : list (ObjectKind * N))
  (self : VulkanDeleteList) (device : Device) :
  bucket k (queue_deletes reqs self) = bucket k self ++ requests_of_kind k reqs /\
  destroyed_of_kind k (snd (PerformDeletes self device)) =
    destroyed_of_kind k device ++ bucket k self /\
  destroyed_of_kind k (snd (PerformDeletes (queue_deletes reqs empty_list) [])) =
    requests_of_kind k reqs.
Proof.
  split; [apply bucket_queue_deletes|]. split.
  - rewrite PerformDeletes_calls. cbn [snd].
    now rewrite destroyed_of_kind_app, destroyed_of_kind_drain_calls.
  - rewrite PerformDeletes_calls. cbn [snd app].
    now rewrite destroyed_of_kind_drain_calls, bucket_queue_deletes, bucket_empty_list.
Qed.

(** C5: there are two frame slots and the slot of frame counter [n] is
    [n mod 2]: the same for [n] and [n + 2], different for [n] and
    [n + 1], also across the wrap-around of a 32-bit unsigned counter. *)
Theorem slot_is_counter_mod_two (n : Z) :
  frame_count = 2 /\
  frame_index n = n mod frame_count /\
  0 <= frame_index n < frame_count /\
  frame_index (n + 2) = frame_index n /\
  frame_index (n + 1) <> frame_index n /\
  frame_index ((n + 2) mod 2 ^ 32) = frame_index n /\
  frame_index ((n + 1) mod 2 ^ 32) <> frame_index n /\
  (forall ctx, curFrame_ ctx = n ->
     GetSurfaceCommandBuffer ctx =
     cmdBuf (if n mod 2 =? 0 then fst (frame_ ctx) else snd (frame_ ctx))).
Proof.
  assert (Hwrap : forall m, frame_index (m mod 2 ^ 32) = frame_index m).
  { intros m. rewrite !frame_index_mod.
    apply Z.mod_mod_divide. exists (2 ^ 31). reflexivity. }
  split; [reflexivity|]. split; [apply frame_index_mod|].
  split; [unfold frame_count; destruct (frame_index_cases n); lia|].
  split; [apply frame_index_plus2|].
  split; [rewrite frame_index_succ; destruct (frame_index_cases n); lia|].
  split; [rewrite Hwrap; apply frame_index_plus2|].
  split; [rewrite Hwrap, frame_index_succ; destruct (frame_index_cases n); lia|].
  intros ctx <-. unfold GetSurfaceCommandBuffer, frame_at.
  now rewrite frame_index_mod.
Qed.

(** C6: queueing a handle of a kind appends it to the bucket of that kind
    and leaves the other buckets as they were; done through [Delete()] on
    the context it changes the global list only and makes no device call. *)
Theorem queue_delete_appends_to_its_bucket_only (k : ObjectKind) (h : N)
  (self : VulkanDeleteList) (ctx : VulkanContext) :
  bucket k (queue_delete k h self) = bucket k self ++ [h] /\
  (forall k', k' <> k -> bucket k' (queue_delete k h self) = bucket k' self) /\
  globalDeleteList_ (api_queue_delete k h ctx) =
    queue_delete k h (globalDeleteList_ ctx) /\
  filter is_device_call (device_ (api_queue_delete k h ctx)) =
    filter is_device_call (device_ ctx) /\
  frame_ (api_queue_delete k h ctx) = frame_ ctx /\
  curFrame_ (api_queue_delete k h ctx) = curFrame_ ctx /\
  current_buffer (api_queue_delete k h ctx) = current_buffer ctx /\
  cmdQueue_ (api_queue_delete k h ctx) = cmdQueue_ ctx /\
  phase (api_queue_delete k h ctx) = phase ctx.
Proof.
  split; [apply bucket_queue_delete_same|].
  split; [intros k' Hk; now apply bucket_queue_delete_other|].
  split; [reflexivity|].
  split; [|repeat split; reflexivity].
  unfold api_queue_delete, call. cbn [device_].
  rewrite filter_app. simpl. apply app_nil_r.
Qed.

(** C2, counterexample: in a build with NDEBUG defined and ANDROID not
    defined the assertions of [Take] are compiled out; [Take] into a list
    that holds buffer 7 does not fail, and the destination then holds the
    source's image 9 only. *)
Lemma take_without_assertions_overwrites :
  asserts_enabled release_build = false /\
  bucket KBuffer (queue_delete KBuffer 7 empty_list) <> [] /\
  Take release_build (queue_delete KBuffer 7 empty_list)
    (queue_delete KImage 9 empty_list) =
  inr (queue_delete KImage 9 empty_list, empty_list).
Proof.
  split; [reflexivity|]. split; [discriminate | reflexivity].
Qed.

(** C2, amended: in a build with assertions compiled in (NDEBUG not
    defined, or ANDROID defined), [Take] into a list with a non-empty bucket
    fails one of its nine assertions in every case; with assertions
    compiled out it does not fail and the destination's buckets are replaced
    by the source's; in every build, [Take] into a list whose buckets are
    all empty succeeds and the destination then holds, per kind, the
    entries of both lists in order. *)
Theorem take_asserts_empty_destination (build : Build)
  (self other : VulkanDeleteList) :
  (asserts_enabled build = true ->
   (exists k, bucket k self <> []) ->
   exists line,
     Take build self other = inl (AssertionFailed line) /\ 66 <= line <= 74) /\
  (asserts_enabled build = false ->
   Take build self other = inr (other, empty_list)) /\
  ((forall k, bucket k self = []) ->
   exists self' other',
     Take build self other = inr (self', other') /\
     forall k, bucket k self' = bucket k self ++ bucket k other).
Proof.
  split; [apply Take_nonempty|]. split; [apply Take_unchecked|].
  intros Hempty. apply all_buckets_empty in Hempty. subst self.
  exists other, empty_list. split; [apply Take_empty|].
  intros k. now rewrite bucket_empty_list.
Qed.

Lemma take_asserts_empty_destination_witness :
  (exists line,
     Take android_release_build (queue_delete KBuffer 7 empty_list)
       (queue_delete KImage 9 empty_list) =
     inl (AssertionFailed line) /\ 66 <= line <= 74) /\
  Take release_build (queue_delete KBuffer 7 empty_list)
    (queue_delete KImage 9 empty_list) =
  inr (queue_delete KImage 9 empty_list, empty_list) /\
  (exists self' other',
     Take debug_build empty_list (queue_delete KImage 9 empty_list) =
     inr (self', other') /\
     forall k, bucket k self' =
               bucket k empty_list ++ bucket k (queue_delete KImage 9 empty_list)).
Proof.
  split; [|split].
  - apply (proj1 (take_asserts_empty_destination android_release_build
                    (queue_delete KBuffer 7 empty_list)
                    (queue_delete KImage 9 empty_list))).
    + reflexivity.
    + exists KBuffer. simpl. discriminate.
  - apply (proj1 (proj2 (take_asserts_empty_destination release_build
                    (queue_delete KBuffer 7 empty_list)
                    (queue_delete KImage 9 empty_list)))).
    reflexivity.
  - apply (proj2 (proj2 (take_asserts_empty_destination debug_build empty_list
                    (queue_delete KImage 9 empty_list)))).
    intros k. destruct k; reflexivity.
Defined.

(** C10: after a [Take] that succeeded, every bucket of the source is
    empty: draining the source makes no call, and draining both lists
    destroys each handle as often as the source held it. *)
Theorem take_leaves_source_empty (build : Build)
  (self del self' del' : VulkanDeleteList) :
  Take build self del = inr (self', del') ->
  (forall k, bucket k del' = []) /\
  (forall device, PerformDeletes del' device = (del', device)) /\
  (forall k h device,
     count_destroy k h
       (snd (PerformDeletes del' (snd (PerformDeletes self' device)))) =
     (count_destroy k h device + count_in k h del)%nat).
Proof.
  intros H. apply Take_ok_inv in H. destruct H as (-> & -> & _).
  split; [apply bucket_empty_list|]. split.
  - intros device. rewrite PerformDeletes_calls. cbn. now rewrite app_nil_r.
  - intros k h device. rewrite !PerformDeletes_calls. cbn [snd].
    change (drain_calls empty_list) with (@nil Event). rewrite app_nil_r.
    now rewrite count_destroy_app, count_destroy_drain_calls.
Qed.

Lemma take_leaves_source_empty_witness :
  (forall k, bucket k empty_list = []) /\
  (forall device, PerformDeletes empty_list device = (empty_list, device)) /\
  (forall k h device,
     count_destroy k h
       (snd (PerformDeletes empty_list
          (snd (PerformDeletes (queue_delete KSampler 4 empty_list) device)))) =
     (count_destroy k h device + count_in k h (queue_delete KSampler 4 empty_list))%nat).
Proof.
  apply (take_leaves_source_empty debug_build empty_list
           (queue_delete KSampler 4 empty_list)).
  reflexivity.
Defined.

(** * Every destroy call has a cleared request of its own *)


























(** * Runs that may abort *)


(** After a stale acquisition no begin-render call returns: the retry waits
    on the fence that was reset before the acquisition and has nothing
    submitted under it. *)
Lemma no_begin_after_stale (build : Build) (place : AbsorbPoint)
  (ops1 ops2 : list Op) (gpu_ns : N) (ctx0 ctx : VulkanContext) :
  run build place (ops1 ++ OpBeginRender gpu_ns AcquireOutOfDate :: ops2) ctx0 = inr ctx ->
  count_begin ops2 = 0%nat.
Proof.
  intros Hr. apply run_app in Hr. destruct Hr as (c1 & _ & Hr). simpl in Hr.
  destruct (BeginSurfaceRenderPass build place gpu_ns AcquireOutOfDate c1)
    as [e | r] eqn:Hb; [discriminate|]. simpl in Hr.
  destruct (Begin_returns _ _ _ _ _ _ Hb)
    as (ns & sig & dl & _ & _ & Hfr & Hcf & _ & _ & Hp & _).
  destruct (frames_after_set_cur _ _ _ Hfr Hcf) as [Hcur _].
  apply (stalled_no_begin build place ops2 (fst r) ctx); try assumption.
  now rewrite Hcur.
Qed.




(** A log in which a handle queued again under frame 3 is destroyed at once,
    with no fence wait on frame 3, is rejected. *)
Example early_destroy_of_requeued_handle_is_rejected :
  ~ destroys_after_own_fence
      [ApiQueueDelete 0 KBuffer 5; FenceWait 0 0 (Some 0); vkDestroyBuffer 5%N;
       FenceWait 1 0 (Some 1); ApiQueueDelete 3 KBuffer 5; vkDestroyBuffer 5%N].
Proof.
  intros H.
  specialize (H [ApiQueueDelete 0 KBuffer 5; FenceWait 0 0 (Some 0); vkDestroyBuffer 5%N;
                 FenceWait 1 0 (Some 1); ApiQueueDelete 3 KBuffer 5]
                [] KBuffer 5%N eq_refl).
  vm_compute in H. inversion H as [|m Hm]. inversion Hm.
Qed.

(** C7: when the fence wait has returned and the acquisition reports a
    stale swapchain, begin-render returns the rebuild request, an outcome
    of its own; the Recording state is not entered and the frame counter
    keeps its value. *)
Theorem stale_acquisition_is_surfaced (build : Build) (place : AbsorbPoint) (gpu_ns : N)
  (ctx : VulkanContext) (ns : N) (sig : option Z) :
  wait_fence (fence (cur_frame ctx)) gpu_ns = Signalled ns sig ->
  exists ctx' added,
    BeginSurfaceRenderPass build place gpu_ns AcquireOutOfDate ctx =
      inr (ctx', NeedsSwapchainRebuild) /\
    (forall cmd image, NeedsSwapchainRebuild <> RenderInto cmd image) /\
    device_ ctx' = device_ ctx ++ added /\
    ~ In (Enter Recording) added /\
    phase ctx' = Idle /\
    curFrame_ ctx' = curFrame_ ctx.
Proof.
  intros Hw.
  destruct (BeginSurfaceRenderPass build place gpu_ns AcquireOutOfDate ctx)
    as [e | [ctx' out]] eqn:Hb.
  - exfalso. unfold BeginSurfaceRenderPass in Hb. fold (cur_frame ctx) in Hb.
    rewrite Hw, PerformDeletes_calls, absorb_at_begin_drained in Hb.
    destruct place; discriminate.
  - destruct (Begin_returns _ _ _ _ _ _ Hb)
      as (ns' & sig' & dl & Hw' & _ & _ & Hcf & _ & Hdev & Hp & Hout & _).
    cbn [fst snd] in *. subst out.
    eexists ctx', _. split; [reflexivity|].
    split; [discriminate|].
    split; [rewrite Hdev, <- app_assoc; reflexivity|].
    split; [|split; assumption].
    rewrite Hp. intros Hin.
    apply in_app_or in Hin. destruct Hin as [Hin | Hin].
    + repeat (destruct Hin as [Hin | Hin]; try discriminate). destruct Hin.
    + apply in_app_or in Hin. destruct Hin as [Hin | Hin].
      * apply in_drain_calls in Hin. destruct Hin as (k & h & Heq & _).
        destruct k; discriminate.
      * repeat (destruct Hin as [Hin | Hin]; try discriminate). destruct Hin.
Qed.

Lemma stale_acquisition_is_surfaced_witness :
  exists ctx' added,
    BeginSurfaceRenderPass debug_build AbsorbAtBegin 0 AcquireOutOfDate (create_context 10 11 20 21) =
      inr (ctx', NeedsSwapchainRebuild) /\
    (forall cmd image, NeedsSwapchainRebuild <> RenderInto cmd image) /\
    device_ ctx' = device_ (create_context 10 11 20 21) ++ added /\
    ~ In (Enter Recording) added /\
    phase ctx' = Idle /\
    curFrame_ ctx' = curFrame_ (create_context 10 11 20 21).
Proof.
  apply (stale_acquisition_is_surfaced debug_build AbsorbAtBegin 0 (create_context 10 11 20 21)
           0%N None).
  reflexivity.
Defined.

(** C8, counterexample: a second begin-render right after the first, with
    no submission in between, selects slot 0 again, whose fence was reset by
    the first call and has nothing submitted under it; the wait runs into
    [FENCE_TIMEOUT] and the call does not return a command buffer. *)
Lemma second_begin_without_submission_times_out :
  exists ctx1 out1,
    BeginSurfaceRenderPass debug_build AbsorbAtBegin 0 (AcquireImage 0)
      (create_context 10 11 20 21) = inr (ctx1, out1) /\
    BeginSurfaceRenderPass debug_build AbsorbAtBegin 0 (AcquireImage 1) ctx1 =
      inl (FenceTimeout 10000000000) /\
    BeginSurfaceRenderPass debug_build AbsorbAtEnd 0 (AcquireImage 1) ctx1 =
      inl (FenceTimeout 10000000000).
Proof.
  eexists _, _. split; [vm_compute; reflexivity|].
  split; vm_compute; reflexivity.
Qed.

(** C8, amended: both slots' fences are created signalled, so the first fence
    wait on each slot does not block: after creating the controller, the
    begin-render of the first frame and, after that frame's end-render, the
    begin-render of the second frame return with fence waits of 0 ns on
    slots 0 and 1, whatever time the GPU needs for the submitted work and
    whatever the acquisitions answer. *)
Theorem first_use_of_each_slot_does_not_block (build : Build) (place : AbsorbPoint)
  (a b c d : VkCommandBuffer) (gpu0 gpu1 : N) (image0 : N) (acq1 : AcquireResult) :
  fence (fst (frame_ (create_context a b c d))) = CreateFence true /\
  fence (snd (frame_ (create_context a b c d))) = CreateFence true /\
  (forall gpu_ns, wait_fence (CreateFence true) gpu_ns = Signalled 0 None) /\
  exists ctx1 ctx2 r,
    BeginSurfaceRenderPass build place gpu0 (AcquireImage image0) (create_context a b c d) =
      inr (ctx1, RenderInto b image0) /\
    filter is_fence_wait (device_ ctx1) = [FenceWait 0 0 None] /\
    EndSurfaceRenderPass build place ctx1 = inr ctx2 /\
    BeginSurfaceRenderPass build place gpu1 acq1 ctx2 = inr r /\
    filter is_fence_wait (device_ (fst r)) = [FenceWait 0 0 None; FenceWait 1 0 None].
Proof.
  split; [reflexivity|]. split; [reflexivity|]. split; [reflexivity|].
  destruct build as [[|] [|]], place, acq1; eexists _, _, _;
    (split; [vm_compute; reflexivity|]); (split; [vm_compute; reflexivity|]);
    (split; [vm_compute; reflexivity|]); (split; [vm_compute; reflexivity|]);
    vm_compute; reflexivity.
Qed.

Lemma queue_all_before_fields (cmds : list VkCommandBuffer) (ctx : VulkanContext) :
  queue_all_before cmds ctx =
  mkContext (device_ ctx) (frame_ ctx) (curFrame_ ctx) (globalDeleteList_ ctx)
    (current_buffer ctx) (cmdQueue_ ctx ++ cmds) (phase ctx).
Proof.
  unfold queue_all_before. revert ctx.
  induction cmds as [|cmd cmds IH]; intros ctx; simpl.
  - rewrite app_nil_r. now destruct ctx.
  - rewrite IH. unfold QueueBeforeSurfaceRender, push_back. cbn.
    now rewrite <- app_assoc.
Qed.

(** C9: the batch submitted at the end of a frame is the slot's init
    commands if it has any, then what was already queued, then the buffers
    queued since in the order of the calls, then the slot's render command
    buffer; it is the only submission of the call and it empties the queue.
    For A then B queued on an empty queue the batch ends in A, B, C. *)
Theorem queued_buffers_precede_render_commands (build : Build) (place : AbsorbPoint)
  (ctx ctx' : VulkanContext) (cmds : list VkCommandBuffer) :
  EndSurfaceRenderPass build place (queue_all_before cmds ctx) = inr ctx' ->
  exists rest,
    device_ ctx' =
      device_ ctx ++
      QueueSubmit (curFrame_ ctx) (frame_index (curFrame_ ctx))
        ((if hasInitCommands (cur_frame ctx) then [cmdInit (cur_frame ctx)] else []) ++
         (cmdQueue_ ctx ++ cmds) ++ [GetSurfaceCommandBuffer ctx]) :: rest /\
    filter is_submit rest = [] /\
    cmdQueue_ ctx' = [].
Proof.
  intros He. destruct (End_returns _ _ _ _ He)
    as (dl & _ & _ & _ & _ & Hq & _ & _ & Hdev).
  rewrite queue_all_before_fields in Hdev.
  unfold cur_frame in Hdev. cbn [device_ frame_ curFrame_ cmdQueue_ current_buffer] in Hdev.
  eexists. split; [exact Hdev|]. split; [reflexivity | exact Hq].
Qed.

Lemma queued_buffers_precede_render_commands_witness :
  exists ctx1 ctx',
    run debug_build AbsorbAtBegin [OpBeginRender 0 (AcquireImage 0)]
      (create_context 10 11 20 21) = inr ctx1 /\
    EndSurfaceRenderPass debug_build AbsorbAtBegin (queue_all_before [77; 78]%N ctx1) = inr ctx' /\
    exists rest,
      device_ ctx' = device_ ctx1 ++ QueueSubmit 0 0 [77; 78; 11]%N :: rest /\
      filter is_submit rest = [] /\
      cmdQueue_ ctx' = [].
Proof.
  eexists _, _. split; [vm_compute; reflexivity|].
  match goal with
  | |- ?E = inr ?c /\ _ => assert (He : E = inr c) by (vm_compute; reflexivity)
  end.
  split; [exact He|].
  destruct (queued_buffers_precede_render_commands _ _ _ _ _ He) as (rest & H1 & H2 & H3).
  exists rest. split; [exact H1|]. split; [exact H2 | exact H3].
Defined.

(** * Further properties of the delete list *)

Lemma delete_list_ext (d1 d2 : VulkanDeleteList) :
  (forall k, bucket k d1 = bucket k d2) -> d1 = d2.
Proof.
  intros H. destruct d1, d2.
  pose proof (H KDescriptorPool). pose proof (H KShaderModule).
  pose proof (H KBuffer). pose proof (H KBufferView). pose proof (H KImage).
  pose proof (H KImageView). pose proof (H KDeviceMemory). pose proof (H KSampler).
  pose proof (H KPipelineCache). simpl in *. subst. reflexivity.
Qed.

Lemma destroyed_kinds_app (a b : Device) :
  destroyed_kinds (a ++ b) = destroyed_kinds a ++ destroyed_kinds b.
Proof. apply flat_map_app. Qed.

Lemma destroyed_kinds_map (k : ObjectKind) (l : list N) :
  destroyed_kinds (map (destroy_call k) l) = repeat k (length l).
Proof.
  induction l as [|x l IH]; [reflexivity|].
  change (map (destroy_call k) (x :: l))
    with ([destroy_call k x] ++ map (destroy_call k) l).
  rewrite destroyed_kinds_app, IH. unfold destroyed_kinds. simpl.
  now rewrite destroyed_object_destroy_call.
Qed.

Lemma sorted_app {A : Type} (R : A -> A -> Prop) (l1 l2 : list A) :
  StronglySorted R l1 -> StronglySorted R l2 ->
  (forall a b, In a l1 -> In b l2 -> R a b) ->
  StronglySorted R (l1 ++ l2).
Proof.
  induction l1 as [|x l1 IH]; intros H1 H2 H; [assumption|].
  inversion H1; subst. simpl. constructor.
  - apply IH; [assumption | assumption |]. intros a b Ha Hb. apply H; [now right | assumption].
  - apply Forall_app. split; [assumption|].
    apply Forall_forall. intros b Hb. apply H; [now left | assumption].
Qed.

Lemma sorted_kind_blocks (n : ObjectKind -> nat) (ks : list ObjectKind) :
  StronglySorted (fun a b => kind_rank a <= kind_rank b) ks ->
  StronglySorted (fun a b => kind_rank a <= kind_rank b)
    (concat (map (fun k => repeat k (n k)) ks)).
Proof.
  induction ks as [|k ks IH]; intros Hs; simpl; [constructor|].
  inversion Hs; subst. apply sorted_app.
  - induction (n k) as [|m IHm]; simpl; constructor; [assumption|].
    apply Forall_forall. intros b Hb. apply repeat_spec in Hb. subst. lia.
  - now apply IH.
  - intros a b Ha Hb. apply repeat_spec in Ha. subst a.
    apply in_concat in Hb. destruct Hb as (l & Hl & Hb).
    apply in_map_iff in Hl. destruct Hl as (k' & <- & Hk').
    apply repeat_spec in Hb. subst b.
    rewrite Forall_forall in H2. now apply H2.
Qed.

Lemma destroyed_kinds_drain_calls (d : VulkanDeleteList) :
  destroyed_kinds (drain_calls d) =
  concat (map (fun k => repeat k (length (bucket k d))) all_kinds).
Proof.
  rewrite drain_calls_by_kind. unfold all_kinds. cbn [map concat].
  rewrite !destroyed_kinds_app, !destroyed_kinds_map. reflexivity.
Qed.

Lemma all_kinds_sorted :
  StronglySorted (fun a b => kind_rank a <= kind_rank b) all_kinds.
Proof.
  unfold all_kinds. repeat (constructor; [|repeat (constructor; [simpl; lia|]); constructor]).
  constructor.
Qed.

Lemma drain_kinds_sorted (self : VulkanDeleteList) :
  StronglySorted (fun a b => kind_rank a <= kind_rank b)
    (destroyed_kinds (drain_calls self)).
Proof.
  rewrite destroyed_kinds_drain_calls. apply sorted_kind_blocks, all_kinds_sorted.
Qed.

Lemma sorted_app_inv_r {A : Type} (R : A -> A -> Prop) (l1 l2 : list A) :
  StronglySorted R (l1 ++ l2) -> StronglySorted R l2.
Proof.
  induction l1 as [|x l1 IH]; intros H; [assumption|].
  inversion H; subst. now apply IH.
Qed.

(** X1: the destroy calls of a drain come kind after kind in the order of
    the members: a call of one kind is never followed by a call of a kind
    declared earlier.  So [vkFreeMemory] comes after every [vkDestroyBuffer]
    and [vkDestroyImage] of the same drain. *)
Theorem drain_order_follows_members (self : VulkanDeleteList)
  (pre post : Device) (k1 k2 : ObjectKind) (h1 h2 : N) :
  snd (PerformDeletes self []) = pre ++ destroy_call k1 h1 :: post ->
  In (destroy_call k2 h2) post ->
  kind_rank k1 <= kind_rank k2.
Proof.
  rewrite PerformDeletes_calls. cbn [snd app]. intros Heq Hin.
  pose proof (drain_kinds_sorted self) as Hs. rewrite Heq in Hs.
  rewrite destroyed_kinds_app in Hs. apply sorted_app_inv_r in Hs.
  change (destroy_call k1 h1 :: post) with ([destroy_call k1 h1] ++ post) in Hs.
  rewrite destroyed_kinds_app in Hs. unfold destroyed_kinds at 1 in Hs.
  simpl in Hs. rewrite destroyed_object_destroy_call in Hs. simpl in Hs.
  inversion Hs as [|x l _ Hall]; subst.
  rewrite Forall_forall in Hall. apply Hall.
  unfold destroyed_kinds. apply in_flat_map. exists (destroy_call k2 h2).
  split; [assumption|]. rewrite destroyed_object_destroy_call. now left.
Qed.

Lemma drain_order_follows_members_witness :
  kind_rank KBuffer <= kind_rank KDeviceMemory.
Proof.
  apply (drain_order_follows_members
           (queue_deletes [(KDeviceMemory, 3%N); (KBuffer, 1%N)] empty_list)
           [] [vkFreeMemory 3%N] KBuffer KDeviceMemory 1%N 3%N).
  - reflexivity.
  - now left.
Defined.

(** X2: with assertions compiled in, [Take] is decided by the first bucket
    of the destination, in member order, that holds an entry: the assertion
    of that bucket's line fails; if there is none, the destination becomes
    the source and the source is left empty.  With assertions compiled out
    (NDEBUG defined, ANDROID not) [Take] never fails: the destination
    becomes the source whatever it held. *)
Theorem take_fails_at_first_nonempty (build : Build) (self del : VulkanDeleteList) :
  Take build self del =
  if asserts_enabled build then
    match first_nonempty self with
    | Some k => inl (AssertionFailed (66 + kind_rank k))
    | None => inr (del, empty_list)
    end
  else inr (del, empty_list).
Proof.
  destruct (asserts_enabled build) eqn:E.
  - now apply Take_checked.
  - now apply Take_unchecked.
Qed.

(** X3: a list that has just been drained passes the assertions of [Take],
    whatever it held before and whatever the source holds. *)
Theorem drained_list_accepts_hand_off (build : Build) (d g : VulkanDeleteList)
  (device : Device) :
  Take build (fst (PerformDeletes d device)) g = inr (g, empty_list).
Proof. rewrite PerformDeletes_calls. apply Take_empty. Qed.

(** X4: a second drain without a request in between makes no device call. *)
Theorem second_drain_is_silent (d : VulkanDeleteList) (device : Device) :
  PerformDeletes (fst (PerformDeletes d device)) (snd (PerformDeletes d device)) =
  (empty_list, snd (PerformDeletes d device)).
Proof.
  rewrite !PerformDeletes_calls. cbn [fst snd].
  change (drain_calls empty_list) with (@nil Event). now rewrite app_nil_r.
Qed.

(** X5: draining the destination after a hand-off makes the calls that
    draining the source would have made, in the same order. *)
Theorem hand_off_preserves_drain (build : Build)
  (self del self' del' : VulkanDeleteList) (device : Device) :
  Take build self del = inr (self', del') ->
  PerformDeletes self' device = PerformDeletes del device.
Proof.
  intros H. apply Take_ok_inv in H. destruct H as (-> & _ & _). reflexivity.
Qed.

Lemma hand_off_preserves_drain_witness :
  PerformDeletes (queue_deletes [(KImage, 2%N); (KBuffer, 1%N)] empty_list) [] =
  PerformDeletes (queue_deletes [(KImage, 2%N); (KBuffer, 1%N)] empty_list) [].
Proof.
  apply (hand_off_preserves_drain debug_build empty_list
           (queue_deletes [(KImage, 2%N); (KBuffer, 1%N)] empty_list)
           (queue_deletes [(KImage, 2%N); (KBuffer, 1%N)] empty_list) empty_list []).
  reflexivity.
Defined.

(** X6: the list a sequence of requests builds, and so the calls of its
    drain, depend only on the requests of each kind in their order, not on
    how requests of different kinds were interleaved. *)
Theorem interleaving_of_kinds_is_irrelevant (reqs1 reqs2 : list (ObjectKind * N))
  (d : VulkanDeleteList) (device : Device) :
  (forall k, requests_of_kind k reqs1 = requests_of_kind k reqs2) ->
  queue_deletes reqs1 d = queue_deletes reqs2 d /\
  PerformDeletes (queue_deletes reqs1 d) device =
  PerformDeletes (queue_deletes reqs2 d) device.
Proof.
  intros H.
  assert (queue_deletes reqs1 d = queue_deletes reqs2 d) as Heq.
  { apply delete_list_ext. intros k. now rewrite !bucket_queue_deletes, H. }
  split; [exact Heq | now rewrite Heq].
Qed.

Lemma interleaving_of_kinds_is_irrelevant_witness :
  queue_deletes [(KImage, 2%N); (KBuffer, 1%N); (KImage, 3%N)] empty_list =
  queue_deletes [(KBuffer, 1%N); (KImage, 2%N); (KImage, 3%N)] empty_list /\
  PerformDeletes
    (queue_deletes [(KImage, 2%N); (KBuffer, 1%N); (KImage, 3%N)] empty_list) [] =
  PerformDeletes
    (queue_deletes [(KBuffer, 1%N); (KImage, 2%N); (KImage, 3%N)] empty_list) [].
Proof.
  apply (interleaving_of_kinds_is_irrelevant
           [(KImage, 2%N); (KBuffer, 1%N); (KImage, 3%N)]
           [(KBuffer, 1%N); (KImage, 2%N); (KImage, 3%N)] empty_list []).
  intros k. destruct k; reflexivity.
Defined.

Lemma count_requested_cons (k k' : ObjectKind) (h h' : N)
  (reqs : list (ObjectKind * N)) :
  count_requested k h ((k', h') :: reqs) =
  ((if kind_eqb k k' && N.eqb h h' then 1 else 0) + count_requested k h reqs)%nat.
Proof.
  unfold count_requested. simpl. destruct (kind_eqb k k' && N.eqb h h'); reflexivity.
Qed.

Lemma count_in_queue_deletes (k : ObjectKind) (h : N) (reqs : list (ObjectKind * N))
  (d : VulkanDeleteList) :
  count_in k h (queue_deletes reqs d) =
  (count_in k h d + count_requested k h reqs)%nat.
Proof.
  unfold queue_deletes. revert d.
  induction reqs as [|[k' h'] reqs IH]; intros d.
  - unfold count_requested. simpl. lia.
  - simpl. rewrite IH, count_in_queue_delete, count_requested_cons.
    cbn [is_request_of]. lia.
Qed.

Lemma total_entries_queue_delete (k : ObjectKind) (h : N) (d : VulkanDeleteList) :
  total_entries (queue_delete k h d) = S (total_entries d).
Proof.
  unfold total_entries, all_kinds.
  destruct k; cbn; unfold push_back; rewrite ?length_app; cbn [length];
    rewrite ?Nat.add_1_r; cbn [Nat.add]; repeat rewrite <- plus_n_Sm; reflexivity.
Qed.

Lemma total_entries_queue_deletes (reqs : list (ObjectKind * N)) (d : VulkanDeleteList) :
  total_entries (queue_deletes reqs d) = (total_entries d + length reqs)%nat.
Proof.
  unfold queue_deletes. revert d.
  induction reqs as [|[k h] reqs IH]; intros d; simpl; [lia|].
  rewrite IH, total_entries_queue_delete. lia.
Qed.

(** X7: requests are neither merged nor dropped: after any sequence of
    requests a drain destroys each handle once per entry the list held
    plus once per request for it (a handle queued twice is destroyed
    twice), with one device call per entry and per request. *)
Theorem drain_destroys_once_per_request (reqs : list (ObjectKind * N))
  (d : VulkanDeleteList) (device : Device) :
  (forall k h,
     count_destroy k h (snd (PerformDeletes (queue_deletes reqs d) device)) =
     (count_destroy k h device + count_in k h d + count_requested k h reqs)%nat) /\
  length (snd (PerformDeletes (queue_deletes reqs d) device)) =
  (length device + total_entries d + length reqs)%nat.
Proof.
  rewrite PerformDeletes_calls. cbn [snd]. split.
  - intros k h. rewrite count_destroy_app, count_destroy_drain_calls,
      count_in_queue_deletes. lia.
  - rewrite length_app, length_drain_calls, total_entries_queue_deletes. lia.
Qed.

(** X8: after a hand-off, a further [Take] into the same destination
    returns exactly when assertions are compiled out or the source of the
    first one was empty.  With assertions compiled in, handing over twice
    without a drain in between aborts as soon as the first hand-off moved
    anything; with assertions compiled out the second hand-off replaces
    what the first one moved, which is then never destroyed. *)
Theorem second_hand_off_needs_drain (build : Build)
  (self del self' del' other : VulkanDeleteList) :
  Take build self del = inr (self', del') ->
  ((exists r, Take build self' other = inr r) <->
   (asserts_enabled build = false \/ forall k, bucket k del = [])) /\
  (asserts_enabled build = false ->
   Take build self' other = inr (other, empty_list)).
Proof.
  intros H. apply Take_ok_inv in H. destruct H as (-> & _ & _).
  split; [|apply Take_unchecked]. split.
  - intros [[s o] Hr]. destruct (asserts_enabled build) eqn:E; [right | now left].
    apply Take_ok_inv in Hr. destruct Hr as (_ & _ & He).
    rewrite (He E). apply bucket_empty_list.
  - intros [E | He].
    + exists (other, empty_list). now apply Take_unchecked.
    + apply all_buckets_empty in He. subst del.
      exists (other, empty_list). apply Take_empty.
Qed.

Lemma second_hand_off_needs_drain_witness :
  ((exists r, Take debug_build (queue_delete KBuffer 1 empty_list) empty_list = inr r) <->
   (asserts_enabled debug_build = false \/
    forall k, bucket k (queue_delete KBuffer 1 empty_list) = [])) /\
  (asserts_enabled debug_build = false ->
   Take debug_build (queue_delete KBuffer 1 empty_list) empty_list =
   inr (empty_list, empty_list)).
Proof.
  apply (second_hand_off_needs_drain debug_build empty_list
           (queue_delete KBuffer 1 empty_list)
           (queue_delete KBuffer 1 empty_list) empty_list empty_list).
  reflexivity.
Defined.

(** * The context flags *)

Lemma land_of_flags (f g : Z) :
  In f vulkan_flags -> In g vulkan_flags ->
  Z.land f g = if f =? g then f else 0.
Proof.
  unfold vulkan_flags. simpl.
  intros [<- | [<- | [<- | [<- | []]]]] [<- | [<- | [<- | [<- | []]]]]; reflexivity.
Qed.

(** X9: the four context flags are distinct single bits: in any combination
    of them formed with [|], testing a flag with [&] gives back that flag if
    it was combined and 0 if not. *)
Theorem flags_combine_independently (fs : list Z) (f : Z) :
  Forall (fun g => In g vulkan_flags) fs -> In f vulkan_flags ->
  Z.land (combine_flags fs) f = if existsb (Z.eqb f) fs then f else 0.
Proof.
  intros Hfs Hf. induction Hfs as [|g fs Hg _ IH]; simpl.
  - reflexivity.
  - rewrite Z.land_lor_distr_l, IH, (land_of_flags g f Hg Hf), (Z.eqb_sym f g).
    destruct (g =? f) eqn:E.
    + apply Z.eqb_eq in E. subst g. simpl.
      destruct (existsb (Z.eqb f) fs); [apply Z.lor_diag | apply Z.lor_0_r].
    + simpl. reflexivity.
Qed.

Lemma flags_combine_independently_witness :
  Z.land (combine_flags [VULKAN_FLAG_VALIDATE; VULKAN_FLAG_PRESENT_IMMEDIATE])
    VULKAN_FLAG_PRESENT_MAILBOX =
  if existsb (Z.eqb VULKAN_FLAG_PRESENT_MAILBOX)
       [VULKAN_FLAG_VALIDATE; VULKAN_FLAG_PRESENT_IMMEDIATE]
  then VULKAN_FLAG_PRESENT_MAILBOX else 0.
Proof.
  apply (flags_combine_independently
           [VULKAN_FLAG_VALIDATE; VULKAN_FLAG_PRESENT_IMMEDIATE]
           VULKAN_FLAG_PRESENT_MAILBOX).
  - constructor; [now left|].
    constructor; [right; right; now left | constructor].
  - right. now left.
Defined.
